(** * Watch lifecycle controller and endpoint discovery of the
      Elasticsearch Terraform provider

    A shallow embedding of [es/resource_elasticsearch_xpack_watch.go] and
    [es/data_source_elasticsearch_host.go].  Every Go function of the two
    files is a Rocq function of the same name.  The cluster the client
    libraries talk to is a parameter (a [Backend]); the calls made on it
    are recorded in a trace, so that statements about which requests an
    operation issues can be made. *)

From Stdlib Require Import ZArith List Bool.
From stdpp Require Import base option strings gmap.
Import ListNotations.

Local Open Scope Z_scope.

(** ** Go values shared by the two files *)

(** A non-nil Go [error], by dynamic type.  [errorString] is what
    [errors.New] and [fmt.Errorf] (without [%w]) build; [elasticN_Error] is
    [*elastic.Error] of client generation N with its [Status] field, which
    the library builds from an HTTP response outside 2xx; [transportError]
    stands for every other failure a request can end in (connection,
    context, decoding).  The nil error is [None : option error]. *)
Inductive error : Type :=
  | errorString (s : string)
  | elastic5_Error (Status : Z)
  | elastic6_Error (Status : Z)
  | elastic7_Error (Status : Z)
  | transportError (s : string).

Definition errors_New (s : string) : error := errorString s.

(** [fmt.Errorf(format, v)] for the one format used here, a prefix followed
    by [%v] of a string. *)
Definition fmt_Errorf (prefix v : string) : error :=
  errorString (String.append prefix v).

Definition http_StatusNotFound : Z := 404.

(** [elastic6.IsNotFound] and [elastic7.IsNotFound] of the client
    libraries: a type switch on the argument that answers [true] for the
    library's own [*Error] whose [Status] is 404.  (The other cases of the
    switch, [*http.Response], [Error] by value and [int], are not [error]
    values and cannot reach it from the call sites below.) *)
Definition elastic6_IsNotFound (err : option error) : bool :=
  match err with
  | Some (elastic6_Error st) => Z.eqb st http_StatusNotFound
  | _ => false
  end.

Definition elastic7_IsNotFound (err : option error) : bool :=
  match err with
  | Some (elastic7_Error st) => Z.eqb st http_StatusNotFound
  | _ => false
  end.

(** The three client generations; each connection object carries the
    private [urls] field that endpoint discovery reads by reflection. *)
Inductive Client : Type :=
  | Elastic7Client (urls : list string)
  | Elastic6Client (urls : list string)
  | Elastic5Client (urls : list string).

Inductive Variant : Type := V5 | V6 | V7.

Definition variant_of (c : Client) : Variant :=
  match c with
  | Elastic7Client _ => V7
  | Elastic6Client _ => V6
  | Elastic5Client _ => V5
  end.

(** Modelled from the spec: [ProviderConf] and [getClient] are declared in
    a file of the repository that is not among the sources.  The spec has
    the collaborator hand the core a ready-made, version-tagged handle, one
    of exactly three variants, fixed for its lifetime; [getClient] returns
    that handle or the error met while building it. *)
Record ProviderConf : Type := { getClient : error + Client }.

(** [*schema.ResourceData]: the identifier ([d.Id()], [d.SetId]) and the
    attributes of the resource's schema, [F]. *)
Record ResourceData (F : Type) : Type :=
  { Id : string; fields : F }.
Arguments Id {F} _.
Arguments fields {F} _.

Definition SetId {F} (d : ResourceData F) (v : string) : ResourceData F :=
  {| Id := v; fields := fields d |}.

(** What a provider function hands back: the returned [error], or a
    run-time panic (failed type assertion, nil dereference). *)
Inductive Result : Type :=
  | Return (err : option error)
  | Panic.

(** ** The watch resource *)

(** Attributes of [xPackWatchSchema]. *)
Record WatchFields : Type :=
  { watch_id : string; body : string; active : bool }.

Definition set_watch_id (v : string) (f : WatchFields) : WatchFields :=
  {| watch_id := v; body := body f; active := active f |}.
Definition set_body (v : string) (f : WatchFields) : WatchFields :=
  {| watch_id := watch_id f; body := v; active := active f |}.
Definition set_active (v : bool) (f : WatchFields) : WatchFields :=
  {| watch_id := watch_id f; body := body f; active := v |}.

(** Modelled from the spec: [resourceDataSetter] is declared in a file of
    the repository that is not among the sources.  It writes the named
    output fields one after the other and keeps the first error; the spec
    gives the output of a successful read as exactly
    [{watch_id, body, active}], so a write of a value of the attribute's
    type succeeds. *)
Record resourceDataSetter : Type :=
  { ds_d : ResourceData WatchFields; ds_err : option error }.

Definition ds_set (ds : resourceDataSetter)
    (write : WatchFields -> WatchFields) : resourceDataSetter :=
  match ds_err ds with
  | Some _ => ds
  | None =>
      {| ds_d := {| Id := Id (ds_d ds); fields := write (fields (ds_d ds)) |};
         ds_err := None |}
  end.

(** [XPackWatcherGetWatchResponse], as far as the controller reads it:
    [.Watch] and [.Status.State.Active].  [Status] and [State] are
    pointers in both client libraries and may be nil ([None]); [W] is the
    value of the [Watch] field as [json.Marshal] receives it, nil
    included. *)
Record XPackWatchExecutionState : Type := { Active : bool }.
Record XPackWatchStatus : Type :=
  { State : option XPackWatchExecutionState }.
Record XPackWatcherGetWatchResponse (W : Type) : Type :=
  { Watch : W; Status : option XPackWatchStatus }.
Arguments Watch {W} _.
Arguments Status {W} _.

(** How a request to the cluster fails, before the client library wraps
    it: an HTTP status outside 2xx, or no usable response at all. *)
Inductive Failure : Type :=
  | HttpError (status : Z)
  | ConnError (msg : string).

(** Each client generation reports an HTTP failure as its own [*Error]. *)
Definition elastic7_error (f : Failure) : error :=
  match f with
  | HttpError st => elastic7_Error st
  | ConnError msg => transportError msg
  end.

Definition elastic6_error (f : Failure) : error :=
  match f with
  | HttpError st => elastic6_Error st
  | ConnError msg => transportError msg
  end.

(** The cluster behind the handle: its state [Cluster], the stored watch
    document [W], the five watcher requests and [json.Marshal] on [W]. *)
Record Backend (Cluster W : Type) : Type :=
  { watch_get : Client -> string -> Cluster ->
                (Failure + XPackWatcherGetWatchResponse W) * Cluster;
    watch_put : Client -> string -> string -> Cluster ->
                option Failure * Cluster;
    watch_delete : Client -> string -> Cluster -> option Failure * Cluster;
    watch_activate : Client -> string -> Cluster -> option Failure * Cluster;
    watch_deactivate : Client -> string -> Cluster ->
                       option Failure * Cluster;
    json_Marshal : W -> string * option error }.
Arguments watch_get {Cluster W} _.
Arguments watch_put {Cluster W} _.
Arguments watch_delete {Cluster W} _.
Arguments watch_activate {Cluster W} _.
Arguments watch_deactivate {Cluster W} _.
Arguments json_Marshal {Cluster W} _.

(** A request issued to the cluster, and the trace entry it leaves: the
    request with the error its [Do] returned. *)
Inductive Call : Type :=
  | XPackWatchGet (id : string)
  | XPackWatchPut (id : string) (body : string)
  | XPackWatchDelete (id : string)
  | XPackWatchActivate (id : string)
  | XPackWatchDeactivate (id : string).

Definition Event : Type := (Call * option error)%type.

Record World (Cluster : Type) : Type :=
  { cluster : Cluster; trace : list Event }.
Arguments cluster {Cluster} _.
Arguments trace {Cluster} _.

(** The interface value [res] of [resourceElasticsearchGetWatch]: the
    string [""], the nil interface, or a response pointer (possibly nil) of
    one of the two generations. *)
Inductive Res (W : Type) : Type :=
  | ResString (s : string)
  | ResNil
  | Res7 (r : option (XPackWatcherGetWatchResponse W))
  | Res6 (r : option (XPackWatcherGetWatchResponse W)).
Arguments ResString {W} _.
Arguments ResNil {W}.
Arguments Res7 {W} _.
Arguments Res6 {W} _.

Definition not_implemented : string :=
  "watch resource not implemented prior to Elastic v6".

Section Controller.

Context {Cluster W : Type}.
Variable backend : Backend Cluster W.

(** One request: run it on the cluster, wrap the failure the way the
    client generation does, and record the call. *)
Definition issue {A : Type} (wrap : Failure -> error) (c : Call)
    (run : Cluster -> (Failure + A) * Cluster) (w : World Cluster)
    : option A * option error * World Cluster :=
  match run (cluster w) with
  | (inl f, k) =>
      (None, Some (wrap f),
       {| cluster := k; trace := trace w ++ [(c, Some (wrap f))] |})
  | (inr a, k) =>
      (Some a, None, {| cluster := k; trace := trace w ++ [(c, None)] |})
  end.

(** The same for a request whose response the controller drops. *)
Definition issue_ (wrap : Failure -> error) (c : Call)
    (run : Cluster -> option Failure * Cluster) (w : World Cluster)
    : option error * World Cluster :=
  match run (cluster w) with
  | (Some f, k) =>
      (Some (wrap f),
       {| cluster := k; trace := trace w ++ [(c, Some (wrap f))] |})
  | (None, k) => (None, {| cluster := k; trace := trace w ++ [(c, None)] |})
  end.

Definition resourceElasticsearchGetWatch (watchID : string)
    (m : ProviderConf) (w : World Cluster)
    : Res W * option error * World Cluster :=
  match getClient m with
  | inl err => (ResString "", Some err, w)
  | inr esClient =>
      match esClient with
      | Elastic7Client _ =>
          let '(res, err, w1) :=
            issue elastic7_error (XPackWatchGet watchID)
                  (watch_get backend esClient watchID) w in
          (Res7 res, err, w1)
      | Elastic6Client _ =>
          let '(res, err, w1) :=
            issue elastic6_error (XPackWatchGet watchID)
                  (watch_get backend esClient watchID) w in
          (Res6 res, err, w1)
      | Elastic5Client _ => (ResNil, Some (errors_New not_implemented), w)
      end
  end.

(** turn on or off the watcher *)
Definition activateWatcher (esClient : Client) (watchID : string)
    (isActive : bool) (w : World Cluster)
    : string * option error * World Cluster :=
  let '(err, w1) :=
    match esClient with
    | Elastic7Client _ =>
        if isActive
        then issue_ elastic7_error (XPackWatchActivate watchID)
                    (watch_activate backend esClient watchID) w
        else issue_ elastic7_error (XPackWatchDeactivate watchID)
                    (watch_deactivate backend esClient watchID) w
    | Elastic6Client _ =>
        if isActive
        then issue_ elastic6_error (XPackWatchActivate watchID)
                    (watch_activate backend esClient watchID) w
        else issue_ elastic6_error (XPackWatchDeactivate watchID)
                    (watch_deactivate backend esClient watchID) w
    | Elastic5Client _ => (Some (errors_New not_implemented), w)
    end in
  match err with
  | Some e => (""%string, Some e, w1)
  | None => (""%string, err, w1)
  end.

Definition resourceElasticsearchPutWatch (d : ResourceData WatchFields)
    (m : ProviderConf) (w : World Cluster)
    : string * option error * World Cluster :=
  let watchID := watch_id (fields d) in
  let watchJSON := body (fields d) in
  let isActive := active (fields d) in
  match getClient m with
  | inl err => (""%string, Some err, w)
  | inr esClient =>
      let '(err, w1) :=
        match esClient with
        | Elastic7Client _ =>
            issue_ elastic7_error (XPackWatchPut watchID watchJSON)
                   (watch_put backend esClient watchID watchJSON) w
        | Elastic6Client _ =>
            issue_ elastic6_error (XPackWatchPut watchID watchJSON)
                   (watch_put backend esClient watchID watchJSON) w
        | Elastic5Client _ => (Some (errors_New not_implemented), w)
        end in
      match err with
      | Some e => (""%string, Some e, w1)
      | None =>
          let '(_, err, w2) := activateWatcher esClient watchID isActive w1 in
          match err with
          | Some e => (""%string, Some e, w2)
          | None => (watchID, None, w2)
          end
      end
  end.

(** The tail of [resourceElasticsearchWatchRead], after the type switch:
    the check of the marshalling error and the three writes. *)
Definition read_finish (d : ResourceData WatchFields) (watch : string)
    (status : bool) (err : option error) : Result * ResourceData WatchFields :=
  match err with
  | Some e => (Return (Some e), d)
  | None =>
      let ds := {| ds_d := d; ds_err := None |} in
      let ds := ds_set ds (set_body watch) in
      let ds := ds_set ds (set_watch_id (Id d)) in
      let ds := ds_set ds (set_active status) in
      (Return (ds_err ds), ds_d ds)
  end.

Definition resourceElasticsearchWatchRead (d : ResourceData WatchFields)
    (m : ProviderConf) (w : World Cluster)
    : Result * ResourceData WatchFields * World Cluster :=
  let '(res, err, w1) := resourceElasticsearchGetWatch (Id d) m w in
  if elastic6_IsNotFound err || elastic7_IsNotFound err
  then (Return None, SetId d "", w1)
  else
    match err with
    | Some e => (Return (Some e), d, w1)
    | None =>
        match getClient m with
        | inl e => (Return (Some e), d, w1)
        | inr esClient =>
            match esClient with
            | Elastic7Client _ =>
                match res with
                | Res7 (Some watchResponse) =>
                    let '(watch, err) :=
                      json_Marshal backend (Watch watchResponse) in
                    match Status watchResponse with
                    | Some st =>
                        match State st with
                        | Some es =>
                            let status := Active es in
                            (read_finish d watch status err, w1)
                        | None => (Panic, d, w1)
                        end
                    | None => (Panic, d, w1)
                    end
                | _ => (Panic, d, w1)
                end
            | Elastic6Client _ =>
                match res with
                | Res6 (Some watchResponse) =>
                    let '(watch, err) :=
                      json_Marshal backend (Watch watchResponse) in
                    match Status watchResponse with
                    | Some st =>
                        match State st with
                        | Some es =>
                            let status := Active es in
                            (read_finish d watch status err, w1)
                        | None => (Panic, d, w1)
                        end
                    | None => (Panic, d, w1)
                    end
                | _ => (Panic, d, w1)
                end
            | Elastic5Client _ =>
                (read_finish d "" false None, w1)
            end
        end
    end.

Definition resourceElasticsearchWatchCreate (d : ResourceData WatchFields)
    (m : ProviderConf) (w : World Cluster)
    : Result * ResourceData WatchFields * World Cluster :=
  let watchID := watch_id (fields d) in
  let '(_, err, w1) := resourceElasticsearchGetWatch watchID m w in
  match err with
  | None =>
      (Return (Some (fmt_Errorf "watch already exists with ID: " watchID)),
       d, w1)
  | Some e =>
      if negb (elastic6_IsNotFound err) && negb (elastic7_IsNotFound err)
      then (Return (Some e), d, w1)
      else
        let '(watchID, err, w2) := resourceElasticsearchPutWatch d m w1 in
        match err with
        | Some e => (Return (Some e), d, w2)
        | None => resourceElasticsearchWatchRead (SetId d watchID) m w2
        end
  end.

Definition resourceElasticsearchWatchUpdate (d : ResourceData WatchFields)
    (m : ProviderConf) (w : World Cluster)
    : Result * ResourceData WatchFields * World Cluster :=
  let '(_, err, w1) := resourceElasticsearchPutWatch d m w in
  match err with
  | Some e => (Return (Some e), d, w1)
  | None => resourceElasticsearchWatchRead d m w1
  end.

Definition resourceElasticsearchWatchDelete (d : ResourceData WatchFields)
    (m : ProviderConf) (w : World Cluster)
    : Result * ResourceData WatchFields * World Cluster :=
  match getClient m with
  | inl err => (Return (Some err), d, w)
  | inr esClient =>
      let '(err, w1) :=
        match esClient with
        | Elastic7Client _ =>
            issue_ elastic7_error (XPackWatchDelete (Id d))
                   (watch_delete backend esClient (Id d)) w
        | Elastic6Client _ =>
            issue_ elastic6_error (XPackWatchDelete (Id d))
                   (watch_delete backend esClient (Id d)) w
        | Elastic5Client _ => (Some (errors_New not_implemented), w)
        end in
      (Return err, d, w1)
  end.

End Controller.

(** ** The [elasticsearch_host] data source *)

(** Attributes of the data source's schema: the required [active] and the
    computed [url] (absent until something writes it). *)
Record HostFields : Type :=
  { host_active : bool; url : option string }.

(** [urls.Len() > 0] then [d.SetId(urls.Index(0).String())]. *)
Definition set_first_url {F} (d : ResourceData F) (urls : list string)
    : ResourceData F :=
  match urls with
  | u :: _ => SetId d u
  | [] => d
  end.

Definition dataSourceElasticsearchHostRead {Cluster : Type}
    (d : ResourceData HostFields) (m : ProviderConf) (w : World Cluster)
    : Result * ResourceData HostFields * World Cluster :=
  match getClient m with
  | inl err => (Return (Some err), d, w)
  | inr esClient =>
      match esClient with
      | Elastic7Client urls => (Return None, set_first_url d urls, w)
      | Elastic6Client urls => (Return None, set_first_url d urls, w)
      | Elastic5Client urls => (Return None, set_first_url d urls, w)
      end
  end.

(** ** Vocabulary of the statements *)

(** The not-found error shape of a client generation: that generation's
    [*Error] with status 404. *)
Definition not_found_shape (v : Variant) (err : option error) : bool :=
  match v, err with
  | V5, Some (elastic5_Error st) => Z.eqb st http_StatusNotFound
  | V6, Some (elastic6_Error st) => Z.eqb st http_StatusNotFound
  | V7, Some (elastic7_Error st) => Z.eqb st http_StatusNotFound
  | _, _ => false
  end.

(** The not-found test as [resourceElasticsearchWatchCreate] and
    [resourceElasticsearchWatchRead] write it. *)
Definition classified_not_found (err : option error) : bool :=
  elastic6_IsNotFound err || elastic7_IsNotFound err.

(** The error a handle's client library makes of a failed request. *)
Definition client_error (c : Client) (f : Failure) : error :=
  match c with
  | Elastic7Client _ => elastic7_error f
  | Elastic6Client _ => elastic6_error f
  | Elastic5Client _ => errors_New not_implemented
  end.

Definition client_urls (c : Client) : list string :=
  match c with
  | Elastic7Client urls => urls
  | Elastic6Client urls => urls
  | Elastic5Client urls => urls
  end.

Definition supports_watches (c : Client) : bool :=
  match c with
  | Elastic5Client _ => false
  | _ => true
  end.

(** The activation request the [active] flag selects. *)
Definition toggle_call (isActive : bool) (id : string) : Call :=
  if isActive then XPackWatchActivate id else XPackWatchDeactivate id.

Definition toggle_request {Cluster W} (b : Backend Cluster W)
    (isActive : bool) : Client -> string -> Cluster -> option Failure * Cluster :=
  if isActive then watch_activate b else watch_deactivate b.

Definition is_toggle (c : Call) : bool :=
  match c with
  | XPackWatchActivate _ | XPackWatchDeactivate _ => true
  | _ => false
  end.

Definition is_toggle_for (isActive : bool) (id : string) (c : Call) : bool :=
  match c, isActive with
  | XPackWatchActivate id', true => String.eqb id id'
  | XPackWatchDeactivate id', false => String.eqb id id'
  | _, _ => false
  end.

(** A scan of a trace: every put that succeeded is followed at once by the
    activation request the flag selects, for the same id, and no
    activation request stands anywhere else. *)
Fixpoint activation_follows_put (isActive : bool) (l : list Event) : bool :=
  match l with
  | [] => true
  | (XPackWatchPut id _, None) :: rest =>
      match rest with
      | (c, _) :: rest' =>
          is_toggle_for isActive id c && activation_follows_put isActive rest'
      | [] => false
      end
  | (c, _) :: rest => negb (is_toggle c) && activation_follows_put isActive rest
  end.

Definition result_of {D Cl : Type} (x : Result * D * World Cl) : Result :=
  fst (fst x).
Definition data_of {D Cl : Type} (x : Result * D * World Cl) : D :=
  snd (fst x).
Definition world_of {D Cl : Type} (x : Result * D * World Cl) : World Cl :=
  snd x.

(** The watch id a request addresses. *)
Definition call_id (c : Call) : string :=
  match c with
  | XPackWatchGet id => id
  | XPackWatchPut id _ => id
  | XPackWatchDelete id => id
  | XPackWatchActivate id => id
  | XPackWatchDeactivate id => id
  end.

Definition is_get (c : Call) : bool :=
  match c with
  | XPackWatchGet _ => true
  | _ => false
  end.

Definition is_put (c : Call) : bool :=
  match c with
  | XPackWatchPut _ _ => true
  | _ => false
  end.

Definition is_delete (c : Call) : bool :=
  match c with
  | XPackWatchDelete _ => true
  | _ => false
  end.

(** The attributes a read that found the watch writes. *)
Definition read_outputs (id s : string) (a : bool) : WatchFields :=
  {| watch_id := id; body := s; active := a |}.

(** [.Status.State.Active] of a response, when both pointers are set. *)
Definition response_active {W : Type} (r : XPackWatcherGetWatchResponse W)
    : option bool :=
  match Status r with
  | Some st =>
      match State st with
      | Some es => Some (Active es)
      | None => None
      end
  | None => None
  end.

(** A lookup that found a watch finds it again when repeated at once. *)
Definition get_repeatable {Cluster W} (b : Backend Cluster W) : Prop :=
  forall cl id c r c',
    watch_get b cl id c = (inr r, c') ->
    exists r' c'', watch_get b cl id c' = (inr r', c'').

(** A lookup right after a delete that succeeded answers 404. *)
Definition deleted_is_gone {Cluster W} (b : Backend Cluster W) : Prop :=
  forall cl id c c',
    watch_delete b cl id c = (None, c') ->
    exists c'', watch_get b cl id c' = (inl (HttpError 404), c'').

(** ** A cluster to run the controller on

    An in-memory cluster: a map from watch id to the stored body and the
    activation status.  It answers 404 for an id it does not hold, stores
    a put as an active watch, and serialises a stored body as itself.  The
    examples run the controller on it. *)
Module RefCluster.

Definition get (_ : Client) (id : string) (s : gmap string (string * bool))
    : (Failure + XPackWatcherGetWatchResponse string)
      * gmap string (string * bool) :=
  match s !! id with
  | Some (b, a) =>
      (inr {| Watch := b;
              Status := Some {| State := Some {| Active := a |} |} |}, s)
  | None => (inl (HttpError 404), s)
  end.

Definition put (_ : Client) (id b : string) (s : gmap string (string * bool))
    : option Failure * gmap string (string * bool) :=
  (None, <[id := (b, true)]> s).

Definition delete (_ : Client) (id : string) (s : gmap string (string * bool))
    : option Failure * gmap string (string * bool) :=
  match s !! id with
  | Some _ => (None, base.delete id s)
  | None => (Some (HttpError 404), s)
  end.

Definition set_status (a : bool) (_ : Client) (id : string)
    (s : gmap string (string * bool))
    : option Failure * gmap string (string * bool) :=
  match s !! id with
  | Some (b, _) => (None, <[id := (b, a)]> s)
  | None => (Some (HttpError 404), s)
  end.

Definition backend : Backend (gmap string (string * bool)) string :=
  {| watch_get := get;
     watch_put := put;
     watch_delete := delete;
     watch_activate := set_status true;
     watch_deactivate := set_status false;
     json_Marshal := fun b => (b, None) |}.

Definition start (s : gmap string (string * bool))
    : World (gmap string (string * bool)) :=
  {| cluster := s; trace := [] |}.

Definition v7 : ProviderConf :=
  {| getClient := inr (Elastic7Client ["http://a:9200"; "http://b:9200"]) |}.
Definition v6 : ProviderConf :=
  {| getClient := inr (Elastic6Client ["http://a:9200"; "http://b:9200"]) |}.
Definition v5 : ProviderConf :=
  {| getClient := inr (Elastic5Client ["http://a:9200"; "http://b:9200"]) |}.
Definition no_urls : ProviderConf :=
  {| getClient := inr (Elastic6Client []) |}.

Definition declared : ResourceData WatchFields :=
  {| Id := "";
     fields := {| watch_id := "w1"; body := "{}"; active := true |} |}.

Definition tracked : ResourceData WatchFields :=
  {| Id := "w1";
     fields := {| watch_id := "w1"; body := "{}"; active := false |} |}.

Definition host : ResourceData HostFields :=
  {| Id := ""; fields := {| host_active := true; url := None |} |}.

Definition broken : ProviderConf :=
  {| getClient := inl (errors_New "no client") |}.

(** The world after [declared] was created on the empty cluster. *)
Definition created : World (gmap string (string * bool)) :=
  world_of (resourceElasticsearchWatchCreate backend declared v7 (start ∅)).

(** A cluster that cannot be reached: every request ends without a
    response. *)
Definition unreachable : Backend unit string :=
  {| watch_get := fun _ _ k => (inl (ConnError "connection refused"), k);
     watch_put := fun _ _ _ k => (Some (ConnError "connection refused"), k);
     watch_delete := fun _ _ k => (Some (ConnError "connection refused"), k);
     watch_activate := fun _ _ k => (Some (ConnError "connection refused"), k);
     watch_deactivate :=
       fun _ _ k => (Some (ConnError "connection refused"), k);
     json_Marshal := fun s => (s, None) |}.

(** The in-memory cluster with activation switched off: activate and
    deactivate are answered with status 500. *)
Definition no_toggle : Backend (gmap string (string * bool)) string :=
  {| watch_get := get;
     watch_put := put;
     watch_delete := delete;
     watch_activate := fun _ _ k => (Some (HttpError 500), k);
     watch_deactivate := fun _ _ k => (Some (HttpError 500), k);
     json_Marshal := fun s => (s, None) |}.

(** A handle that could not be built because the cluster answered the
    version probe with 404. *)
Definition lost : ProviderConf :=
  {| getClient := inl (elastic7_Error 404) |}.

(** The in-memory cluster behind a proxy that strips the status from
    the answer of a lookup. *)
Definition no_status : Backend (gmap string (string * bool)) string :=
  {| watch_get := fun c id s =>
       match get c id s with
       | (inr r, k) => (inr {| Watch := Watch r; Status := None |}, k)
       | other => other
       end;
     watch_put := put;
     watch_delete := delete;
     watch_activate := set_status true;
     watch_deactivate := set_status false;
     json_Marshal := fun s => (s, None) |}.

(** A cluster that counts its lookups: the first is answered 404, every
    later one 500; puts and activation requests succeed. *)
Definition lookup_breaks : Backend nat string :=
  {| watch_get := fun _ _ n =>
       (inl (HttpError (if Nat.eqb n 0 then 404 else 500)), S n);
     watch_put := fun _ _ _ n => (None, n);
     watch_delete := fun _ _ n => (None, n);
     watch_activate := fun _ _ n => (None, n);
     watch_deactivate := fun _ _ n => (None, n);
     json_Marshal := fun s => (s, None) |}.

End RefCluster.

(** ** Proof steps shared by the statements below *)

(** Split on the innermost scrutinee of the goal (a handle, the answer of a
    request, an error), keeping the equation. *)
Ltac split_scrutinee :=
  match goal with
  | |- context [match ?x with _ => _ end] =>
      lazymatch x with
      | context [match _ with _ => _ end] => fail
      | _ => destruct x eqn:?
      end
  end.

Ltac split_scrutinee_in H :=
  match type of H with
  | context [match ?x with _ => _ end] =>
      lazymatch x with
      | context [match _ with _ => _ end] => fail
      | _ => destruct x eqn:?
      end
  end.

Ltac unfold_controller :=
  unfold resourceElasticsearchWatchCreate, resourceElasticsearchWatchUpdate,
    resourceElasticsearchWatchDelete, resourceElasticsearchWatchRead,
    resourceElasticsearchPutWatch, activateWatcher,
    resourceElasticsearchGetWatch, read_finish, ds_set, issue, issue_,
    toggle_request, toggle_call, client_error, classified_not_found in *.

(** Run an operation down to its leaves: one goal per combination of
    handle, answers of the requests and outcome of the not-found test. *)
Ltac run_controller :=
  unfold_controller; unfold result_of, data_of, world_of;
  repeat (split_scrutinee; simpl);
  repeat match goal with
         | E : (_, _) = (_, _) |- _ => inversion E; subst; clear E
         end;
  simpl.

(** Name the requests added to the trace. *)
Ltac give_trace :=
  eexists;
  (split;
   [ first [ symmetry; apply app_nil_r
           | rewrite <- ?app_assoc; reflexivity ] | ]);
  simpl.

Section WatchFacts.

Context {Cluster W : Type}.
Variable b : Backend Cluster W.

(** What the existence probe returns on a handle that supports watches:
    the answer of the one lookup it issues, wrapped by the handle's client
    library. *)
Lemma get_watch_supported (id : string) (m : ProviderConf) (cl : Client)
    (w : World Cluster) :
  getClient m = inr cl ->
  supports_watches cl = true ->
  exists res,
    resourceElasticsearchGetWatch b id m w =
      (res,
       match fst (watch_get b cl id (cluster w)) with
       | inl f => Some (client_error cl f)
       | inr _ => None
       end,
       {| cluster := snd (watch_get b cl id (cluster w));
          trace := trace w ++
            [(XPackWatchGet id,
              match fst (watch_get b cl id (cluster w)) with
              | inl f => Some (client_error cl f)
              | inr _ => None
              end)] |}).
Proof.
  intros Hm Hs. unfold_controller. rewrite Hm.
  destruct cl; try discriminate; simpl;
    destruct (watch_get b _ id (cluster w)) as [[f|r] k]; simpl; eauto.
Qed.

(** The probe changes nothing when it returns an error without a lookup,
    and otherwise adds the one lookup to the trace. *)
Lemma get_watch_trace (id : string) (m : ProviderConf) (w w1 : World Cluster)
    (res : Res W) (err : option error) :
  resourceElasticsearchGetWatch b id m w = (res, err, w1) ->
  w1 = w \/ trace w1 = trace w ++ [(XPackWatchGet id, err)].
Proof.
  unfold_controller. intros H.
  repeat (split_scrutinee_in H; simpl in H);
    inversion H; subst; simpl; auto.
Qed.

(** A read that succeeds and keeps the identifier has just looked the
    watch up and found it. *)
Lemma read_kept_id (d d1 : ResourceData WatchFields) (m : ProviderConf)
    (w w1 : World Cluster) :
  resourceElasticsearchWatchRead b d m w = (Return None, d1, w1) ->
  Id d1 <> ""%string ->
  exists cl r,
    getClient m = inr cl /\
    watch_get b cl (Id d) (cluster w) = (inr r, cluster w1).
Proof.
  unfold_controller. intros H Hid.
  repeat (split_scrutinee_in H; simpl in H);
    inversion H; subst; simpl in *; try congruence;
    repeat match goal with
           | E : (_, _) = (_, _) |- _ => inversion E; subst; clear E
           end; simpl; eauto.
Qed.

(** When [resourceElasticsearchPutWatch] returns no error, the string it
    returns is the declared watch id. *)
Lemma put_watch_returns_id (d : ResourceData WatchFields) (m : ProviderConf)
    (w w1 : World Cluster) (i : string) :
  resourceElasticsearchPutWatch b d m w = (i, None, w1) ->
  i = watch_id (fields d).
Proof.
  unfold_controller. intros H.
  repeat (split_scrutinee_in H; simpl in H); congruence.
Qed.

(** Without a handle, Create, Update and Delete return the error of
    [getClient] and issue nothing. *)
Lemma no_handle_no_request (d : ResourceData WatchFields) (m : ProviderConf)
    (e : error) (w : World Cluster) :
  getClient m = inl e ->
  resourceElasticsearchWatchCreate b d m w = (Return (Some e), d, w) /\
  resourceElasticsearchWatchUpdate b d m w = (Return (Some e), d, w) /\
  resourceElasticsearchWatchDelete b d m w = (Return (Some e), d, w).
Proof.
  intros Hm. unfold_controller. rewrite Hm. simpl.
  repeat split; try reflexivity.
  destruct (negb _ && negb _); reflexivity.
Qed.

End WatchFacts.

(** Each library's test answers [true] on its own not-found shape only,
    and the controller's test is their disjunction, whatever the handle. *)
Lemma classified_not_found_shapes (err : option error) :
  classified_not_found err = not_found_shape V6 err || not_found_shape V7 err.
Proof. destruct err as [[]|]; reflexivity. Qed.

Lemma not_found_shape_exclusive (v v' : Variant) (err : option error) :
  not_found_shape v err = true -> not_found_shape v' err = true -> v = v'.
Proof. destruct v, v', err as [[]|]; simpl; congruence. Qed.

Section WatchClaims.

Context {Cluster W : Type}.
Variable b : Backend Cluster W.

(** C1. On a handle of any of the three variants, the not-found test of
    Read and of Create, applied to an error the handle's own lookup
    returned, succeeds exactly when that error has the not-found shape of
    the handle's own variant: Read then reports the watch absent (no
    error, identifier cleared) and otherwise returns the error; Create then
    goes on to the put (and on to its closing read when the put and the
    activation succeed) and otherwise returns the error.  Such an error
    never has the not-found shape of another variant. *)
Theorem C1_not_found_is_own_variant (d : ResourceData WatchFields)
    (m : ProviderConf) (cl : Client) (w : World Cluster) :
  getClient m = inr cl ->
  (forall res e w1,
     resourceElasticsearchGetWatch b (Id d) m w = (res, Some e, w1) ->
     resourceElasticsearchWatchRead b d m w =
       (if not_found_shape (variant_of cl) (Some e)
        then (Return None, SetId d "", w1)
        else (Return (Some e), d, w1)) /\
     (forall v, not_found_shape v (Some e) = true -> v = variant_of cl)) /\
  (forall res e w1,
     resourceElasticsearchGetWatch b (watch_id (fields d)) m w
       = (res, Some e, w1) ->
     resourceElasticsearchWatchCreate b d m w =
       (if not_found_shape (variant_of cl) (Some e)
        then
          match resourceElasticsearchPutWatch b d m w1 with
          | (_, Some pe, w2) => (Return (Some pe), d, w2)
          | (watchID, None, w2) =>
              resourceElasticsearchWatchRead b (SetId d watchID) m w2
          end
        else (Return (Some e), d, w1)) /\
     (forall v, not_found_shape v (Some e) = true -> v = variant_of cl)).
Proof.
  intros Hm.
  assert (Hown : forall id res e w1,
            resourceElasticsearchGetWatch b id m w = (res, Some e, w1) ->
            classified_not_found (Some e)
              = not_found_shape (variant_of cl) (Some e) /\
            (forall v, not_found_shape v (Some e) = true -> v = variant_of cl)).
  { intros id res e w1 H. unfold_controller. rewrite Hm in H.
    destruct cl; simpl in H;
      repeat (split_scrutinee_in H; simpl in H);
      inversion H; subst; simpl;
      try match goal with f : Failure |- _ => destruct f; simpl end;
      rewrite ?orb_false_r;
      (split; [reflexivity|]);
      intros [] Hv; simpl in Hv; congruence. }
  split; intros res e w1 H; destruct (Hown _ _ _ _ H) as [Hc Hex];
    (split; [|exact Hex]); rewrite <- Hc.
  - unfold resourceElasticsearchWatchRead. rewrite H.
    unfold classified_not_found.
    destruct (elastic6_IsNotFound (Some e) || elastic7_IsNotFound (Some e));
      reflexivity.
  - unfold resourceElasticsearchWatchCreate. rewrite H.
    unfold classified_not_found.
    destruct (elastic6_IsNotFound (Some e)), (elastic7_IsNotFound (Some e));
      simpl; try reflexivity;
      destruct (resourceElasticsearchPutWatch b d m w1) as [[wid [pe|]] w2];
      reflexivity.
Qed.

(** C2. When the existence probe of Create finds the watch (the lookup
    returns no error), Create returns the error "watch already exists with
    ID: <id>", leaves the resource data as it was, and the only request it
    has issued is that lookup: no put.  In particular, on a cluster whose
    lookups are repeatable, a Create that succeeded and kept the identifier
    makes a second Create of the same id fail in that way, again with the
    lookup as its only request. *)
Theorem C2_create_existing_fails (d : ResourceData WatchFields)
    (m : ProviderConf) (w : World Cluster) :
  (forall res w1,
     resourceElasticsearchGetWatch b (watch_id (fields d)) m w
       = (res, None, w1) ->
     resourceElasticsearchWatchCreate b d m w =
       (Return (Some (fmt_Errorf "watch already exists with ID: "
                                 (watch_id (fields d)))), d, w1) /\
     trace w1 = trace w ++ [(XPackWatchGet (watch_id (fields d)), None)]) /\
  (forall d1 w1 d2,
     get_repeatable b ->
     resourceElasticsearchWatchCreate b d m w = (Return None, d1, w1) ->
     Id d1 <> ""%string ->
     watch_id (fields d2) = watch_id (fields d) ->
     exists w2,
       resourceElasticsearchWatchCreate b d2 m w1 =
         (Return (Some (fmt_Errorf "watch already exists with ID: "
                                   (watch_id (fields d)))), d2, w2) /\
       trace w2 = trace w1 ++ [(XPackWatchGet (watch_id (fields d)), None)]).
Proof.
  assert (Hfst : forall (d0 : ResourceData WatchFields) w0 res w1,
     resourceElasticsearchGetWatch b (watch_id (fields d0)) m w0
       = (res, None, w1) ->
     resourceElasticsearchWatchCreate b d0 m w0 =
       (Return (Some (fmt_Errorf "watch already exists with ID: "
                                 (watch_id (fields d0)))), d0, w1) /\
     trace w1 = trace w0 ++ [(XPackWatchGet (watch_id (fields d0)), None)]).
  { intros d0 w0 res w1 H. split.
    - unfold resourceElasticsearchWatchCreate. rewrite H. reflexivity.
    - destruct (get_watch_trace b _ _ _ _ _ _ H) as [->|Ht]; [|exact Ht].
      exfalso. clear -H. unfold_controller.
      repeat (split_scrutinee_in H; simpl in H); inversion H; subst;
        match goal with
        | E : trace _ ++ _ = trace _ |- _ =>
            apply (f_equal (@length _)) in E; rewrite length_app in E;
            simpl in E; lia
        | E : _ = _ :> World _ |- _ =>
            apply (f_equal trace) in E; simpl in E;
            apply (f_equal (@length _)) in E; rewrite length_app in E;
            simpl in E; lia
        | _ => idtac
        end. }
  split; [apply Hfst|].
  intros d1 w1 d2 Hrep Hc Hid Hsame.
  assert (Hfound : exists cl r c,
            getClient m = inr cl /\
            watch_get b cl (watch_id (fields d)) c = (inr r, cluster w1)).
  { unfold resourceElasticsearchWatchCreate in Hc.
    destruct (resourceElasticsearchGetWatch b (watch_id (fields d)) m w)
      as [[res err] wg].
    destruct err as [e|]; [|discriminate].
    destruct (negb (elastic6_IsNotFound (Some e)) &&
              negb (elastic7_IsNotFound (Some e))); [discriminate|].
    destruct (resourceElasticsearchPutWatch b d m wg) as [[wid perr] wp] eqn:Hp.
    destruct perr as [pe|]; [discriminate|].
    assert (wid = watch_id (fields d)) as ->.
    { clear -Hp. unfold_controller.
      repeat (split_scrutinee_in Hp; simpl in Hp); congruence. }
    destruct (read_kept_id b _ _ _ _ _ Hc Hid) as (cl & r & Hm & Hg).
    simpl in Hg. eauto. }
  destruct Hfound as (cl & r & c & Hm & Hg).
  destruct (Hrep _ _ _ _ _ Hg) as (r' & c'' & Hg').
  assert (Hs : supports_watches cl = true).
  { clear -Hc Hm. destruct cl; try reflexivity. exfalso.
    unfold_controller. rewrite Hm in Hc. simpl in Hc. discriminate. }
  destruct (get_watch_supported b (watch_id (fields d)) m cl w1 Hm Hs)
    as [res Hprobe].
  rewrite Hg' in Hprobe. simpl in Hprobe.
  rewrite <- Hsame in Hprobe.
  destruct (Hfst d2 w1 _ _ Hprobe) as [Hr Ht].
  rewrite <- Hsame. eexists. split; [exact Hr|exact Ht].
Qed.

(** C3. When the existence probe of Create returns an error that neither
    library's test recognises as not found, Create returns that very error
    with the resource data untouched, and stops in the world the probe
    left: beyond the probe's lookup (if it got that far) no request is
    issued, so no put, activate or deactivate. *)
Theorem C3_create_aborts_on_probe_error (d : ResourceData WatchFields)
    (m : ProviderConf) (w w1 : World Cluster) (res : Res W) (e : error) :
  resourceElasticsearchGetWatch b (watch_id (fields d)) m w
    = (res, Some e, w1) ->
  elastic6_IsNotFound (Some e) = false ->
  elastic7_IsNotFound (Some e) = false ->
  resourceElasticsearchWatchCreate b d m w = (Return (Some e), d, w1) /\
  (w1 = w \/
   trace w1 = trace w ++ [(XPackWatchGet (watch_id (fields d)), Some e)]).
Proof.
  intros H H6 H7. split.
  - unfold resourceElasticsearchWatchCreate. rewrite H, H6, H7. reflexivity.
  - eapply get_watch_trace. exact H.
Qed.

(** C4. When the lookup of Read returns an error that the controller's
    test classifies as not found, Read returns no error, sets the
    identifier to the empty string and leaves every attribute (body,
    active, watch_id) as it was, with that lookup as its last step.  In
    particular, on a cluster where a deleted watch is gone, a Delete that
    succeeded followed by a Read reports the watch absent in this way. *)
Theorem C4_read_not_found_clears_id (d : ResourceData WatchFields)
    (m : ProviderConf) (w : World Cluster) :
  (forall res err w1,
     resourceElasticsearchGetWatch b (Id d) m w = (res, err, w1) ->
     classified_not_found err = true ->
     resourceElasticsearchWatchRead b d m w = (Return None, SetId d "", w1) /\
     Id (SetId d "") = ""%string /\
     fields (SetId d "") = fields d) /\
  (forall d1 w1,
     deleted_is_gone b ->
     resourceElasticsearchWatchDelete b d m w = (Return None, d1, w1) ->
     exists w2,
       resourceElasticsearchWatchRead b d1 m w1 = (Return None, SetId d "", w2)).
Proof.
  assert (Hfst : forall w0 res err w1,
     resourceElasticsearchGetWatch b (Id d) m w0 = (res, err, w1) ->
     classified_not_found err = true ->
     resourceElasticsearchWatchRead b d m w0 = (Return None, SetId d "", w1)).
  { intros w0 res err w1 H Hc.
    unfold resourceElasticsearchWatchRead. rewrite H.
    unfold classified_not_found in Hc. rewrite Hc. reflexivity. }
  split.
  - intros res err w1 H Hc. split; [eapply Hfst; eassumption|].
    split; reflexivity.
  - intros d1 w1 Hgone Hd.
    unfold resourceElasticsearchWatchDelete in Hd.
    destruct (getClient m) as [e|cl] eqn:Hm; [discriminate|].
    assert (Hdel : d1 = d /\ supports_watches cl = true /\
                   watch_delete b cl (Id d) (cluster w) = (None, cluster w1)).
    { clear -Hd. unfold issue_ in Hd.
      destruct cl; simpl in Hd; try discriminate;
        destruct (watch_delete b _ (Id d) (cluster w)) as [[f|] k];
        inversion Hd; subst; simpl; auto. }
    destruct Hdel as (-> & Hs & Hdel).
    destruct (Hgone _ _ _ _ Hdel) as [c'' Hg].
    destruct (get_watch_supported b (Id d) m cl w1 Hm Hs) as [res Hprobe].
    rewrite Hg in Hprobe. simpl in Hprobe.
    eexists. eapply Hfst; [exact Hprobe|].
    clear -Hs. destruct cl; try discriminate; reflexivity.
Qed.

(** C5. On a handle that supports watches, Update issues the put of the
    declared (id, body) as its first request, with no lookup before it.
    If the put fails, Update returns the put's error and has issued
    nothing else.  If it succeeds, the next request is activate or
    deactivate as the [active] flag says; its failure is returned with
    nothing issued after it.  If both succeed, Update is a Read in the
    world they leave; when that Read's lookup finds the watch and its body
    serialises, Update returns no error and the outputs are
    [watch_id] = the identifier, [body] = the serialised stored body and
    [active] = the status the response reports (the response carrying its
    status and state). *)
Theorem C5_update_puts_toggles_reads (d : ResourceData WatchFields)
    (m : ProviderConf) (cl : Client) (w : World Cluster) :
  getClient m = inr cl ->
  supports_watches cl = true ->
  let id := watch_id (fields d) in
  let js := body (fields d) in
  let a := active (fields d) in
  match watch_put b cl id js (cluster w) with
  | (Some f, k) =>
      resourceElasticsearchWatchUpdate b d m w =
        (Return (Some (client_error cl f)), d,
         {| cluster := k;
            trace := trace w ++
              [(XPackWatchPut id js, Some (client_error cl f))] |})
  | (None, k) =>
      match toggle_request b a cl id k with
      | (Some f, k2) =>
          resourceElasticsearchWatchUpdate b d m w =
            (Return (Some (client_error cl f)), d,
             {| cluster := k2;
                trace := trace w ++
                  [(XPackWatchPut id js, None);
                   (toggle_call a id, Some (client_error cl f))] |})
      | (None, k2) =>
          resourceElasticsearchWatchUpdate b d m w =
            resourceElasticsearchWatchRead b d m
              {| cluster := k2;
                 trace := trace w ++
                   [(XPackWatchPut id js, None); (toggle_call a id, None)] |}
          /\
          (forall r k3 s st es,
             watch_get b cl (Id d) k2 = (inr r, k3) ->
             Status r = Some st ->
             State st = Some es ->
             json_Marshal b (Watch r) = (s, None) ->
             resourceElasticsearchWatchUpdate b d m w =
               (Return None,
                {| Id := Id d;
                   fields := {| watch_id := Id d; body := s;
                                active := Active es |} |},
                {| cluster := k3;
                   trace := trace w ++
                     [(XPackWatchPut id js, None); (toggle_call a id, None);
                      (XPackWatchGet (Id d), None)] |}))
      end
  end.
Proof.
  intros Hm Hs id js a.
  assert (Hput : resourceElasticsearchPutWatch b d m w =
    match watch_put b cl id js (cluster w) with
    | (Some f, k) =>
        (""%string, Some (client_error cl f),
         {| cluster := k;
            trace := trace w ++
              [(XPackWatchPut id js, Some (client_error cl f))] |})
    | (None, k) =>
        match toggle_request b a cl id k with
        | (Some f, k2) =>
            (""%string, Some (client_error cl f),
             {| cluster := k2;
                trace := trace w ++
                  [(XPackWatchPut id js, None);
                   (toggle_call a id, Some (client_error cl f))] |})
        | (None, k2) =>
            (id, None,
             {| cluster := k2;
                trace := trace w ++
                  [(XPackWatchPut id js, None); (toggle_call a id, None)] |})
        end
    end).
  { subst id js a. unfold_controller. rewrite Hm.
    destruct cl; try discriminate; simpl;
      destruct (watch_put b _ _ _ (cluster w)) as [[f|] k]; simpl;
      try reflexivity;
      destruct (active (fields d)); simpl;
      match goal with
      | |- context [watch_activate b ?c ?i ?k] =>
          destruct (watch_activate b c i k) as [[f|] k2]
      | |- context [watch_deactivate b ?c ?i ?k] =>
          destruct (watch_deactivate b c i k) as [[f|] k2]
      end; simpl; rewrite <- app_assoc; reflexivity. }
  unfold resourceElasticsearchWatchUpdate. rewrite Hput.
  destruct (watch_put b cl id js (cluster w)) as [[f|] k]; [reflexivity|].
  destruct (toggle_request b a cl id k) as [[f|] k2]; [reflexivity|].
  split; [reflexivity|].
  intros r k3 s st es Hg Hst Hes Hj.
  unfold_controller. rewrite Hm.
  destruct cl; try discriminate; simpl; rewrite Hg; simpl; rewrite Hj;
    rewrite Hst, Hes; simpl; rewrite <- app_assoc; reflexivity.
Qed.

(** C6. On a handle of the oldest variant, Create, Read, Update and
    Delete each return the error "watch resource not implemented prior to
    Elastic v6", which no test classifies as not found and which has no
    variant's not-found shape; the resource data and the world (cluster
    and trace) are left as they were, so no request is issued. *)
Theorem C6_oldest_variant_unsupported (d : ResourceData WatchFields)
    (m : ProviderConf) (urls : list string) (w : World Cluster) :
  getClient m = inr (Elastic5Client urls) ->
  let unsupported := Some (errors_New not_implemented) in
  resourceElasticsearchWatchCreate b d m w = (Return unsupported, d, w) /\
  resourceElasticsearchWatchRead b d m w = (Return unsupported, d, w) /\
  resourceElasticsearchWatchUpdate b d m w = (Return unsupported, d, w) /\
  resourceElasticsearchWatchDelete b d m w = (Return unsupported, d, w) /\
  classified_not_found unsupported = false /\
  (forall v, not_found_shape v unsupported = false).
Proof.
  intros Hm unsupported. subst unsupported. unfold_controller. rewrite Hm.
  simpl. repeat split. intros []; reflexivity.
Qed.

(** C7. In the requests a Create or an Update issues, every put that
    succeeded is followed at once by the activation request the [active]
    flag selects (activate when set, deactivate when not) for the id that
    was put, no activation request stands anywhere else (none before the
    put, none after a put that failed), and when an activation request
    fails the operation returns that failure. *)
Theorem C7_activation_follows_put (d : ResourceData WatchFields)
    (m : ProviderConf) (w : World Cluster) :
  (exists l,
     trace (world_of (resourceElasticsearchWatchCreate b d m w))
       = trace w ++ l /\
     activation_follows_put (active (fields d)) l = true /\
     forall c e, In (c, Some e) l -> is_toggle c = true ->
       result_of (resourceElasticsearchWatchCreate b d m w)
         = Return (Some e)) /\
  (exists l,
     trace (world_of (resourceElasticsearchWatchUpdate b d m w))
       = trace w ++ l /\
     activation_follows_put (active (fields d)) l = true /\
     forall c e, In (c, Some e) l -> is_toggle c = true ->
       result_of (resourceElasticsearchWatchUpdate b d m w)
         = Return (Some e)).
Proof.
  split; unfold_controller; unfold result_of, world_of;
    repeat (split_scrutinee; simpl);
    repeat match goal with
           | E : (_, _) = (_, _) |- _ => inversion E; subst; clear E
           end; simpl;
    eexists;
    (split;
     [ first [ symmetry; apply app_nil_r
             | rewrite <- ?app_assoc; reflexivity ] | ]);
    simpl; rewrite ?String.eqb_refl;
    (split; [ reflexivity | ]);
    intros ? ? Hin Ht; simpl in Hin;
    repeat match goal with
           | H : _ \/ _ |- _ => destruct H
           | H : (_, _) = (_, _) |- _ => inversion H; subst; clear H
           | H : False |- _ => destruct H
           end;
    first [ reflexivity | discriminate ].
Qed.

(** C9. On a handle that supports watches, Delete issues the one delete
    request for the identifier and returns exactly what it returned, as the
    handle's client library reports it; the resource data is untouched.
    In particular a 404 answer (the id is already absent) is returned as
    an error of the own variant's not-found shape, identifier kept. *)
Theorem C9_delete_returns_backend_error (d : ResourceData WatchFields)
    (m : ProviderConf) (cl : Client) (w : World Cluster) :
  getClient m = inr cl ->
  supports_watches cl = true ->
  resourceElasticsearchWatchDelete b d m w =
    (Return (client_error cl <$> fst (watch_delete b cl (Id d) (cluster w))),
     d,
     {| cluster := snd (watch_delete b cl (Id d) (cluster w));
        trace := trace w ++
          [(XPackWatchDelete (Id d),
            client_error cl <$> fst (watch_delete b cl (Id d) (cluster w)))]
     |}) /\
  (fst (watch_delete b cl (Id d) (cluster w)) = Some (HttpError 404) ->
   exists e,
     result_of (resourceElasticsearchWatchDelete b d m w) = Return (Some e) /\
     not_found_shape (variant_of cl) (Some e) = true /\
     Id (data_of (resourceElasticsearchWatchDelete b d m w)) = Id d).
Proof.
  intros Hm Hs.
  assert (Heq : resourceElasticsearchWatchDelete b d m w =
    (Return (client_error cl <$> fst (watch_delete b cl (Id d) (cluster w))),
     d,
     {| cluster := snd (watch_delete b cl (Id d) (cluster w));
        trace := trace w ++
          [(XPackWatchDelete (Id d),
            client_error cl <$> fst (watch_delete b cl (Id d) (cluster w)))]
     |})).
  { unfold_controller. rewrite Hm.
    destruct cl; try discriminate; simpl;
      destruct (watch_delete b _ (Id d) (cluster w)) as [[f|] k];
      reflexivity. }
  split; [exact Heq|].
  intros H404. rewrite Heq, H404. unfold result_of, data_of. simpl.
  eexists. split; [reflexivity|].
  split; [|reflexivity].
  destruct cl; try discriminate; reflexivity.
Qed.

End WatchClaims.

(** ** Endpoint discovery *)

Section HostClaims.

Context {Cluster : Type}.

(** C8. For a handle of any of the three variants, the read of the data
    source returns no error and leaves the world as it was (no request is
    issued); when the handle's endpoint list is not empty the identifier
    of the returned resource data is its first entry, and when it is empty
    the resource data is returned unchanged, so no identifier is set. *)
Theorem C8_host_read_first_url (d : ResourceData HostFields)
    (m : ProviderConf) (cl : Client) (w : World Cluster) :
  getClient m = inr cl ->
  (forall u rest, client_urls cl = u :: rest ->
     dataSourceElasticsearchHostRead d m w = (Return None, SetId d u, w) /\
     Id (data_of (dataSourceElasticsearchHostRead d m w)) = u) /\
  (client_urls cl = [] ->
     dataSourceElasticsearchHostRead d m w = (Return None, d, w) /\
     Id (data_of (dataSourceElasticsearchHostRead d m w)) = Id d).
Proof.
  intros Hm. unfold dataSourceElasticsearchHostRead, data_of. rewrite Hm.
  split; [intros u rest Hu|intros Hu]; destruct cl; simpl in Hu; subst;
    split; reflexivity.
Qed.

(** C10. Whatever the handle and the prior resource data, the read of the
    data source changes at most the identifier: the attributes, and with
    them the computed [url], are what they were before the read. *)
Theorem C10_host_read_writes_only_id (d : ResourceData HostFields)
    (m : ProviderConf) (w : World Cluster) :
  fields (data_of (dataSourceElasticsearchHostRead d m w)) = fields d /\
  url (fields (data_of (dataSourceElasticsearchHostRead d m w)))
    = url (fields d) /\
  data_of (dataSourceElasticsearchHostRead d m w)
    = SetId d (Id (data_of (dataSourceElasticsearchHostRead d m w))).
Proof.
  unfold dataSourceElasticsearchHostRead, data_of, set_first_url, SetId.
  destruct d as [i f].
  destruct (getClient m) as [e|[[|u us]|[|u us]|[|u us]]]; simpl; auto.
Qed.

End HostClaims.

(** ** Runs on the in-memory cluster *)

Lemma ref_get_repeatable : get_repeatable RefCluster.backend.
Proof.
  intros cl id c r c' H. simpl in *. unfold RefCluster.get in *.
  destruct (c !! id) as [[bd a]|] eqn:E; inversion H; subst.
  rewrite E. eauto.
Qed.

Lemma ref_deleted_is_gone : deleted_is_gone RefCluster.backend.
Proof.
  intros cl id c c' H. simpl in *.
  unfold RefCluster.delete, RefCluster.get in *.
  destruct (c !! id) as [p|] eqn:E; inversion H; subst.
  rewrite lookup_delete_eq. eauto.
Qed.

Example broken_handle_create :
  resourceElasticsearchWatchCreate RefCluster.backend RefCluster.declared
      RefCluster.broken (RefCluster.start ∅)
    = (Return (Some (errorString "no client")), RefCluster.declared,
       RefCluster.start ∅).
Proof. reflexivity. Qed.

(** Read and Create of an id the cluster does not hold, on a v7 handle:
    the lookup is answered 404 in the v7 shape. *)
Lemma C1_witness :
  resourceElasticsearchWatchRead RefCluster.backend RefCluster.tracked
      RefCluster.v7 (RefCluster.start ∅)
    = (Return None, {| Id := ""; fields := fields RefCluster.tracked |},
       {| cluster := ∅;
          trace := [(XPackWatchGet "w1", Some (elastic7_Error 404))] |}) /\
  result_of (resourceElasticsearchWatchCreate RefCluster.backend
               RefCluster.declared RefCluster.v7 (RefCluster.start ∅))
    = Return None /\
  Id (data_of (resourceElasticsearchWatchCreate RefCluster.backend
                 RefCluster.declared RefCluster.v7 (RefCluster.start ∅)))
    = "w1"%string.
Proof.
  pose proof (C1_not_found_is_own_variant RefCluster.backend
                RefCluster.tracked RefCluster.v7
                (Elastic7Client ["http://a:9200"; "http://b:9200"])
                (RefCluster.start ∅) eq_refl) as [Hr _].
  pose proof (C1_not_found_is_own_variant RefCluster.backend
                RefCluster.declared RefCluster.v7
                (Elastic7Client ["http://a:9200"; "http://b:9200"])
                (RefCluster.start ∅) eq_refl) as [_ Hc].
  destruct (Hr (Res7 None) (elastic7_Error 404)
               {| cluster := ∅;
                  trace := [(XPackWatchGet "w1", Some (elastic7_Error 404))] |}
               ltac:(vm_compute; reflexivity)) as [Hread _].
  destruct (Hc (Res7 None) (elastic7_Error 404)
               {| cluster := ∅;
                  trace := [(XPackWatchGet "w1", Some (elastic7_Error 404))] |}
               ltac:(vm_compute; reflexivity)) as [Hcreate _].
  rewrite Hread, Hcreate. vm_compute. repeat split.
Defined.

(** A second Create of the watch [declared] was created as. *)
Lemma C2_witness :
  resourceElasticsearchWatchCreate RefCluster.backend RefCluster.declared
      RefCluster.v7 RefCluster.created
    = (Return (Some (errorString "watch already exists with ID: w1")),
       RefCluster.declared,
       {| cluster := cluster RefCluster.created;
          trace := trace RefCluster.created ++ [(XPackWatchGet "w1", None)] |})
  /\
  exists w2,
    resourceElasticsearchWatchCreate RefCluster.backend RefCluster.declared
        RefCluster.v7 RefCluster.created
      = (Return (Some (errorString "watch already exists with ID: w1")),
         RefCluster.declared, w2) /\
    trace w2 = trace RefCluster.created ++ [(XPackWatchGet "w1", None)].
Proof.
  split.
  - apply (proj1 (C2_create_existing_fails RefCluster.backend
                    RefCluster.declared RefCluster.v7 RefCluster.created)
             (Res7 (Some {| Watch := "{}"%string;
                            Status :=
                              Some {| State := Some {| Active := true |} |}
                         |}))).
    vm_compute; reflexivity.
  - apply (proj2 (C2_create_existing_fails RefCluster.backend
                    RefCluster.declared RefCluster.v7 (RefCluster.start ∅))
             {| Id := "w1";
                fields := {| watch_id := "w1"; body := "{}"; active := true |}
             |} RefCluster.created RefCluster.declared ref_get_repeatable).
    + vm_compute; reflexivity.
    + vm_compute; discriminate.
    + reflexivity.
Defined.

(** Create on a cluster that cannot be reached. *)
Lemma C3_witness :
  resourceElasticsearchWatchCreate RefCluster.unreachable RefCluster.declared
      RefCluster.v6 {| cluster := tt; trace := [] |}
    = (Return (Some (transportError "connection refused")),
       RefCluster.declared,
       {| cluster := tt;
          trace := [(XPackWatchGet "w1",
                     Some (transportError "connection refused"))] |}).
Proof.
  apply (proj1 (C3_create_aborts_on_probe_error RefCluster.unreachable
                  RefCluster.declared RefCluster.v6
                  {| cluster := tt; trace := [] |}
                  {| cluster := tt;
                     trace := [(XPackWatchGet "w1",
                                Some (transportError "connection refused"))] |}
                  (Res6 None) (transportError "connection refused")
                  eq_refl eq_refl eq_refl)).
Defined.

(** Read of an id the cluster does not hold, and Read after Delete. *)
Lemma C4_witness :
  resourceElasticsearchWatchRead RefCluster.backend RefCluster.tracked
      RefCluster.v6 (RefCluster.start ∅)
    = (Return None, SetId RefCluster.tracked "",
       {| cluster := ∅;
          trace := [(XPackWatchGet "w1", Some (elastic6_Error 404))] |}) /\
  exists w2,
    resourceElasticsearchWatchRead RefCluster.backend RefCluster.tracked
        RefCluster.v7
        (world_of (resourceElasticsearchWatchDelete RefCluster.backend
                     RefCluster.tracked RefCluster.v7 RefCluster.created))
      = (Return None, SetId RefCluster.tracked "", w2).
Proof.
  split.
  - apply (proj1 (C4_read_not_found_clears_id RefCluster.backend
                    RefCluster.tracked RefCluster.v6 (RefCluster.start ∅))
             (Res6 None) (Some (elastic6_Error 404))).
    + vm_compute; reflexivity.
    + reflexivity.
  - apply (proj2 (C4_read_not_found_clears_id RefCluster.backend
                    RefCluster.tracked RefCluster.v7 RefCluster.created)
             RefCluster.tracked _ ref_deleted_is_gone).
    vm_compute; reflexivity.
Defined.

(** Update of a watch, declared inactive, on the empty cluster. *)
Lemma C5_witness :
  resourceElasticsearchWatchUpdate RefCluster.backend RefCluster.tracked
      RefCluster.v6 (RefCluster.start ∅)
    = (Return None, RefCluster.tracked,
       {| cluster := {["w1"%string := ("{}"%string, false)]};
          trace := [(XPackWatchPut "w1" "{}", None);
                    (XPackWatchDeactivate "w1", None);
                    (XPackWatchGet "w1", None)] |}).
Proof.
  pose proof (C5_update_puts_toggles_reads RefCluster.backend
                RefCluster.tracked RefCluster.v6
                (Elastic6Client ["http://a:9200"; "http://b:9200"])
                (RefCluster.start ∅) eq_refl eq_refl) as H.
  hnf in H. destruct H as [_ H].
  apply (H {| Watch := "{}"%string;
              Status := Some {| State := Some {| Active := false |} |} |}
           {["w1"%string := ("{}"%string, false)]} "{}"%string
           {| State := Some {| Active := false |} |} {| Active := false |});
    vm_compute; reflexivity.
Defined.

(** Create on a handle of the oldest variant. *)
Lemma C6_witness :
  resourceElasticsearchWatchCreate RefCluster.backend RefCluster.declared
      RefCluster.v5 (RefCluster.start ∅)
    = (Return (Some (errorString
                       "watch resource not implemented prior to Elastic v6")),
       RefCluster.declared, RefCluster.start ∅).
Proof.
  apply (proj1 (C6_oldest_variant_unsupported RefCluster.backend
                  RefCluster.declared RefCluster.v5
                  ["http://a:9200"; "http://b:9200"] (RefCluster.start ∅)
                  eq_refl)).
Defined.

(** Update on the cluster that refuses activation requests. *)
Lemma C7_witness :
  result_of (resourceElasticsearchWatchUpdate RefCluster.no_toggle
               RefCluster.tracked RefCluster.v6 (RefCluster.start ∅))
    = Return (Some (elastic6_Error 500)).
Proof.
  destruct (proj2 (C7_activation_follows_put RefCluster.no_toggle
                     RefCluster.tracked RefCluster.v6 (RefCluster.start ∅)))
    as (l & Ht & _ & Hf).
  apply (Hf (XPackWatchDeactivate "w1")); [|reflexivity].
  vm_compute in Ht. rewrite <- Ht. right. left. reflexivity.
Defined.

(** The two endpoint lists of the examples. *)
Lemma C8_witness :
  (dataSourceElasticsearchHostRead RefCluster.host RefCluster.v5
       (RefCluster.start ∅)
     = (Return None,
        {| Id := "http://a:9200"; fields := fields RefCluster.host |},
        RefCluster.start ∅) /\
   Id (data_of (dataSourceElasticsearchHostRead RefCluster.host RefCluster.v5
                  (RefCluster.start ∅))) = "http://a:9200"%string) /\
  (dataSourceElasticsearchHostRead RefCluster.host RefCluster.no_urls
       (RefCluster.start ∅)
     = (Return None, RefCluster.host, RefCluster.start ∅) /\
   Id (data_of (dataSourceElasticsearchHostRead RefCluster.host
                  RefCluster.no_urls (RefCluster.start ∅))) = ""%string).
Proof.
  split.
  - apply (proj1 (C8_host_read_first_url RefCluster.host RefCluster.v5
                    (Elastic5Client ["http://a:9200"; "http://b:9200"])
                    (RefCluster.start ∅) eq_refl)
             "http://a:9200"%string ["http://b:9200"%string]).
    reflexivity.
  - apply (proj2 (C8_host_read_first_url RefCluster.host RefCluster.no_urls
                    (Elastic6Client []) (RefCluster.start ∅) eq_refl)).
    reflexivity.
Defined.

(** Delete of an id the cluster does not hold. *)
Lemma C9_witness :
  exists e,
    result_of (resourceElasticsearchWatchDelete RefCluster.backend
                 RefCluster.tracked RefCluster.v6 (RefCluster.start ∅))
      = Return (Some e) /\
    not_found_shape V6 (Some e) = true /\
    Id (data_of (resourceElasticsearchWatchDelete RefCluster.backend
                   RefCluster.tracked RefCluster.v6 (RefCluster.start ∅)))
      = "w1"%string.
Proof.
  apply (proj2 (C9_delete_returns_backend_error RefCluster.backend
                  RefCluster.tracked RefCluster.v6
                  (Elastic6Client ["http://a:9200"; "http://b:9200"])
                  (RefCluster.start ∅) eq_refl eq_refl)).
  vm_compute; reflexivity.
Defined.

(** ** Further properties of the watch controller *)

Section WatchProperties.

Context {Cluster W : Type}.
Variable b : Backend Cluster W.

(** Create of a watch the cluster does not hold: when the probe is
    answered 404, the put and the activation request succeed, and the
    lookup of the closing read finds the watch, with its status and state,
    and its body serialises, Create returns no error, the identifier is
    the declared watch id, and the attributes are the id, the serialised
    stored body and the status the cluster reports (not the declared
    flag).  The requests are, in order, lookup, put, activation, lookup. *)
Theorem create_fresh_watch (d : ResourceData WatchFields) (m : ProviderConf)
    (cl : Client) (w : World Cluster) (k1 k2 k3 k4 : Cluster)
    (r : XPackWatcherGetWatchResponse W) (st : XPackWatchStatus)
    (es : XPackWatchExecutionState) (s : string) :
  getClient m = inr cl ->
  supports_watches cl = true ->
  let id := watch_id (fields d) in
  let js := body (fields d) in
  let a := active (fields d) in
  watch_get b cl id (cluster w) = (inl (HttpError 404), k1) ->
  watch_put b cl id js k1 = (None, k2) ->
  toggle_request b a cl id k2 = (None, k3) ->
  watch_get b cl id k3 = (inr r, k4) ->
  Status r = Some st ->
  State st = Some es ->
  json_Marshal b (Watch r) = (s, None) ->
  resourceElasticsearchWatchCreate b d m w =
    (Return None,
     {| Id := id; fields := read_outputs id s (Active es) |},
     {| cluster := k4;
        trace := trace w ++
          [(XPackWatchGet id, Some (client_error cl (HttpError 404)));
           (XPackWatchPut id js, None);
           (toggle_call a id, None);
           (XPackWatchGet id, None)] |}).
Proof.
  intros Hm Hs id js a Hg Hp Ht Hg' Hst Hes Hj. subst id js a.
  unfold_controller. rewrite Hm.
  destruct cl; try discriminate; simpl; rewrite Hg; simpl; rewrite Hp; simpl;
    destruct (active (fields d)); simpl in *; rewrite Ht; simpl;
    rewrite Hg'; simpl; rewrite Hj, Hst, Hes; simpl;
    rewrite <- !app_assoc; reflexivity.
Qed.

(** Create after a probe answered 404: a put that fails ends Create with
    the put's error, and an activation request that fails ends it with
    that error although the put has stored the watch; in both cases the
    resource data, identifier included, is as before.  When both succeed
    Create is a Read of the declared watch id in the world they leave. *)
Theorem create_failure_after_probe (d : ResourceData WatchFields)
    (m : ProviderConf) (cl : Client) (w : World Cluster) (k1 : Cluster) :
  getClient m = inr cl ->
  supports_watches cl = true ->
  let id := watch_id (fields d) in
  let js := body (fields d) in
  let a := active (fields d) in
  let nf := Some (client_error cl (HttpError 404)) in
  watch_get b cl id (cluster w) = (inl (HttpError 404), k1) ->
  match watch_put b cl id js k1 with
  | (Some f, k2) =>
      resourceElasticsearchWatchCreate b d m w =
        (Return (Some (client_error cl f)), d,
         {| cluster := k2;
            trace := trace w ++
              [(XPackWatchGet id, nf);
               (XPackWatchPut id js, Some (client_error cl f))] |})
  | (None, k2) =>
      match toggle_request b a cl id k2 with
      | (Some f, k3) =>
          resourceElasticsearchWatchCreate b d m w =
            (Return (Some (client_error cl f)), d,
             {| cluster := k3;
                trace := trace w ++
                  [(XPackWatchGet id, nf);
                   (XPackWatchPut id js, None);
                   (toggle_call a id, Some (client_error cl f))] |})
      | (None, k3) =>
          resourceElasticsearchWatchCreate b d m w =
            resourceElasticsearchWatchRead b (SetId d id) m
              {| cluster := k3;
                 trace := trace w ++
                   [(XPackWatchGet id, nf);
                    (XPackWatchPut id js, None);
                    (toggle_call a id, None)] |}
      end
  end.
Proof.
  intros Hm Hs id js a nf Hg. subst id js a nf.
  unfold resourceElasticsearchWatchCreate, resourceElasticsearchPutWatch,
    activateWatcher, resourceElasticsearchGetWatch, issue, issue_,
    toggle_request, toggle_call, client_error.
  rewrite Hm.
  destruct cl; try discriminate; simpl; rewrite Hg; simpl;
    destruct (watch_put b _ _ _ k1) as [[f|] k2]; simpl;
    rewrite <- ?app_assoc; try reflexivity;
    destruct (active (fields d)); simpl;
    match goal with
    | |- context [watch_activate b ?c ?i ?k] =>
        destruct (watch_activate b c i k) as [[f|] k3]
    | |- context [watch_deactivate b ?c ?i ?k] =>
        destruct (watch_deactivate b c i k) as [[f|] k3]
    end; simpl; rewrite <- ?app_assoc; reflexivity.
Qed.

(** Where the resource can panic.  A Read panics exactly when its
    lookup found the watch and the response lacks its status or the
    status its state, which the read dereferences unchecked; the type
    assertion on the response never fails, since the response comes from a
    lookup made with a client of the generation the read switches on.
    Delete never panics, and Update and Create panic only in their closing
    read, after a put and an activation that succeeded. *)
Theorem panic_only_on_missing_status (d : ResourceData WatchFields)
    (m : ProviderConf) (w : World Cluster) :
  (result_of (resourceElasticsearchWatchRead b d m w) = Panic <->
   exists cl r,
     getClient m = inr cl /\
     supports_watches cl = true /\
     fst (watch_get b cl (Id d) (cluster w)) = inr r /\
     response_active r = None) /\
  result_of (resourceElasticsearchWatchDelete b d m w) <> Panic /\
  (result_of (resourceElasticsearchWatchUpdate b d m w) = Panic ->
   exists w1,
     resourceElasticsearchPutWatch b d m w = (watch_id (fields d), None, w1) /\
     result_of (resourceElasticsearchWatchRead b d m w1) = Panic) /\
  (result_of (resourceElasticsearchWatchCreate b d m w) = Panic ->
   exists res e w0 w1,
     resourceElasticsearchGetWatch b (watch_id (fields d)) m w
       = (res, Some e, w0) /\
     resourceElasticsearchPutWatch b d m w0
       = (watch_id (fields d), None, w1) /\
     result_of (resourceElasticsearchWatchRead b
                  (SetId d (watch_id (fields d))) m w1) = Panic).
Proof.
  split; [|split; [|split]].
  - unfold resourceElasticsearchWatchRead, resourceElasticsearchGetWatch,
      issue, read_finish, ds_set, result_of, response_active.
    destruct (getClient m) as [e|cl]; simpl.
    { split.
      - repeat (split_scrutinee; simpl); discriminate.
      - intros (cl & r & H & _). discriminate. }
    assert (Hback : forall cl',
              inr cl = @inr error Client cl' -> cl' = cl) by congruence.
    destruct cl; simpl;
      [ destruct (watch_get b _ (Id d) (cluster w)) as [[f|r] k] eqn:Hg
      | destruct (watch_get b _ (Id d) (cluster w)) as [[f|r] k] eqn:Hg
      | ]; simpl.
    1, 3:
      (split;
       [ repeat (split_scrutinee; simpl); discriminate
       | intros (cl' & r' & H & Hs & Hf & Ha); apply Hback in H; subst cl';
         rewrite Hg in Hf; discriminate ]).
    1, 2:
      (destruct (json_Marshal b (Watch r)) as [js je];
       destruct (Status r) as [st|] eqn:Hst;
       [ destruct (State st) as [es|] eqn:Hes | ]; simpl;
       (split;
        [ intros HP;
          first [ exfalso; clear -HP; destruct je; discriminate HP
                | eexists _, r; rewrite Hg, Hst, ?Hes; auto ]
        | intros (cl' & r' & H & Hs & Hf & Ha); apply Hback in H; subst cl';
          rewrite Hg in Hf; simpl in Hf; inversion Hf; subst r';
          rewrite Hst, ?Hes in Ha;
          first [ discriminate Ha | reflexivity ] ])).
    split; [discriminate|].
    intros (cl' & r' & H & Hs & _). apply Hback in H; subst cl'.
    discriminate.
  - run_controller; discriminate.
  - unfold resourceElasticsearchWatchUpdate.
    destruct (resourceElasticsearchPutWatch b d m w) as [[i [e|]] w1] eqn:Hp;
      unfold result_of; simpl; [discriminate|].
    intros HP. pose proof (put_watch_returns_id b _ _ _ _ _ Hp) as ->.
    eexists. split; [reflexivity|exact HP].
  - unfold resourceElasticsearchWatchCreate.
    destruct (resourceElasticsearchGetWatch b (watch_id (fields d)) m w)
      as [[res [e|]] w0];
      unfold result_of; simpl; [|discriminate].
    destruct (negb _ && negb _); simpl; [discriminate|].
    destruct (resourceElasticsearchPutWatch b d m w0) as [[i [pe|]] w1] eqn:Hp;
      simpl; [discriminate|].
    intros HP. pose proof (put_watch_returns_id b _ _ _ _ _ Hp) as ->.
    eexists _, _, _, _. split; [reflexivity|]. split; [exact Hp|exact HP].
Qed.

(** A read whose lookup finds the watch.  When the response lacks its
    status or state the read panics, whatever serialising gave.  Otherwise,
    when the body serialises, no error is returned, the identifier is kept
    and the attributes become the identifier, the serialised body and the
    reported status; when serialising fails, that error is returned and
    the resource data is untouched.  In every case the lookup is the only
    request. *)
Theorem read_found_watch (d : ResourceData WatchFields) (m : ProviderConf)
    (cl : Client) (w : World Cluster) (k : Cluster)
    (r : XPackWatcherGetWatchResponse W) :
  getClient m = inr cl ->
  supports_watches cl = true ->
  watch_get b cl (Id d) (cluster w) = (inr r, k) ->
  let w1 := {| cluster := k;
               trace := trace w ++ [(XPackWatchGet (Id d), None)] |} in
  match response_active r, json_Marshal b (Watch r) with
  | None, _ =>
      resourceElasticsearchWatchRead b d m w = (Panic, d, w1)
  | Some a, (s, None) =>
      resourceElasticsearchWatchRead b d m w =
        (Return None,
         {| Id := Id d; fields := read_outputs (Id d) s a |}, w1)
  | Some _, (_, Some e) =>
      resourceElasticsearchWatchRead b d m w = (Return (Some e), d, w1)
  end.
Proof.
  intros Hm Hs Hg w1. subst w1. unfold_controller. unfold response_active.
  rewrite Hm.
  destruct cl; try discriminate; simpl; rewrite Hg; simpl;
    destruct (json_Marshal b (Watch r)) as [s [e|]];
    destruct (Status r) as [st|]; try reflexivity;
    destruct (State st); reflexivity.
Qed.

(** The only request a read issues is the lookup of the identifier:
    either the world is left as it was, or it is the world after that one
    lookup on the handle's client. *)
Theorem read_issues_one_lookup (d : ResourceData WatchFields)
    (m : ProviderConf) (w : World Cluster) :
  world_of (resourceElasticsearchWatchRead b d m w) = w \/
  exists cl e,
    getClient m = inr cl /\
    world_of (resourceElasticsearchWatchRead b d m w) =
      {| cluster := snd (watch_get b cl (Id d) (cluster w));
         trace := trace w ++ [(XPackWatchGet (Id d), e)] |}.
Proof.
  unfold_controller; unfold world_of.
  destruct (getClient m) as [e|cl] eqn:Hm; simpl.
  - left. repeat (split_scrutinee; simpl); reflexivity.
  - destruct cl; simpl;
      try (left; repeat (split_scrutinee; simpl); reflexivity);
      right;
      destruct (watch_get b _ (Id d) (cluster w)) as [[f|r] k] eqn:Hg;
      simpl; repeat (split_scrutinee; simpl);
      eexists _, _; (split; [reflexivity|]); rewrite Hg; reflexivity.
Qed.

(** What an operation that returns an error leaves in the resource data.
    Read, Update and Delete leave it untouched (Delete in every case).
    Create leaves it untouched too, except when the error comes from its
    closing read: then the identifier is already the declared watch id,
    and the put and the activation request have both succeeded. *)
Theorem failed_operation_data (d : ResourceData WatchFields)
    (m : ProviderConf) (w : World Cluster) (e : error) :
  (result_of (resourceElasticsearchWatchRead b d m w) = Return (Some e) ->
   data_of (resourceElasticsearchWatchRead b d m w) = d) /\
  (result_of (resourceElasticsearchWatchUpdate b d m w) = Return (Some e) ->
   data_of (resourceElasticsearchWatchUpdate b d m w) = d) /\
  data_of (resourceElasticsearchWatchDelete b d m w) = d /\
  (result_of (resourceElasticsearchWatchCreate b d m w) = Return (Some e) ->
   data_of (resourceElasticsearchWatchCreate b d m w) = d \/
   data_of (resourceElasticsearchWatchCreate b d m w)
     = SetId d (watch_id (fields d)) /\
   exists l,
     trace (world_of (resourceElasticsearchWatchCreate b d m w))
       = trace w ++ l /\
     In (XPackWatchPut (watch_id (fields d)) (body (fields d)), None) l /\
     In (toggle_call (active (fields d)) (watch_id (fields d)), None) l).
Proof.
  repeat split.
  - run_controller; intros; try reflexivity; discriminate.
  - run_controller; intros; try reflexivity; discriminate.
  - run_controller; reflexivity.
  - run_controller; intros; try discriminate;
      first [ left; reflexivity
            | right; split; [reflexivity|]; give_trace; auto 10 ].
Qed.

(** The identifier after an operation.  Read and Update keep it or clear
    it; Create leaves it, sets it to the declared watch id, or clears it.
    And whenever Create, Read or Update returns no error, either the
    identifier is empty or the [watch_id] attribute equals it. *)
Theorem identifier_after_operation (d : ResourceData WatchFields)
    (m : ProviderConf) (w : World Cluster) :
  let r := resourceElasticsearchWatchRead b d m w in
  let u := resourceElasticsearchWatchUpdate b d m w in
  let c := resourceElasticsearchWatchCreate b d m w in
  (Id (data_of r) = Id d \/ Id (data_of r) = ""%string) /\
  (Id (data_of u) = Id d \/ Id (data_of u) = ""%string) /\
  (Id (data_of c) = Id d \/ Id (data_of c) = watch_id (fields d) \/
   Id (data_of c) = ""%string) /\
  (result_of r = Return None ->
   Id (data_of r) = ""%string \/ watch_id (fields (data_of r)) = Id (data_of r))
  /\
  (result_of u = Return None ->
   Id (data_of u) = ""%string \/ watch_id (fields (data_of u)) = Id (data_of u))
  /\
  (result_of c = Return None ->
   Id (data_of c) = ""%string \/ watch_id (fields (data_of c)) = Id (data_of c)).
Proof.
  intros r u c. subst r u c.
  repeat split; run_controller; intros; try discriminate; auto.
Qed.

(** Every request a Create issues addresses the declared watch id, the
    closing lookup included, and every put carries the declared body. *)
Theorem create_addresses_declared_id (d : ResourceData WatchFields)
    (m : ProviderConf) (w : World Cluster) :
  exists l,
    trace (world_of (resourceElasticsearchWatchCreate b d m w))
      = trace w ++ l /\
    Forall (fun ev : Event => call_id (fst ev) = watch_id (fields d)) l /\
    forall i js e, In (XPackWatchPut i js, e) l -> js = body (fields d).
Proof.
  run_controller; give_trace;
    (split; [ repeat constructor | ]);
    intros ? ? ? Hin; simpl in Hin;
    repeat match goal with
           | H : _ \/ _ |- _ => destruct H
           | H : (_, _) = (_, _) |- _ => inversion H; subst; clear H
           | H : False |- _ => destruct H
           end;
    reflexivity.
Qed.

(** An Update puts and activates under the declared watch id but looks
    the watch up under the identifier. *)
Theorem update_addresses (d : ResourceData WatchFields)
    (m : ProviderConf) (w : World Cluster) :
  exists l,
    trace (world_of (resourceElasticsearchWatchUpdate b d m w))
      = trace w ++ l /\
    forall c e, In (c, e) l ->
      call_id c = if is_get c then Id d else watch_id (fields d).
Proof.
  run_controller; give_trace;
    intros ? ? Hin; simpl in Hin;
    repeat match goal with
           | H : _ \/ _ |- _ => destruct H
           | H : (_, _) = (_, _) |- _ => inversion H; subst; clear H
           | H : False |- _ => destruct H
           end;
    reflexivity.
Qed.

(** Nothing is retried: a Create issues at most four requests, an Update
    at most three, a Read and a Delete at most one. *)
Theorem request_bounds (d : ResourceData WatchFields) (m : ProviderConf)
    (w : World Cluster) :
  (exists l,
     trace (world_of (resourceElasticsearchWatchCreate b d m w))
       = trace w ++ l /\ (length l <= 4)%nat) /\
  (exists l,
     trace (world_of (resourceElasticsearchWatchUpdate b d m w))
       = trace w ++ l /\ (length l <= 3)%nat) /\
  (exists l,
     trace (world_of (resourceElasticsearchWatchRead b d m w))
       = trace w ++ l /\ (length l <= 1)%nat) /\
  (exists l,
     trace (world_of (resourceElasticsearchWatchDelete b d m w))
       = trace w ++ l /\ (length l <= 1)%nat).
Proof.
  repeat split; run_controller; give_trace; lia.
Qed.

(** A Create puts only after its probe was classified as not found: when
    a put is among its requests, the requests start with the lookup of the
    declared id, whose error the not-found test accepts, and the put of the
    declared id and body comes right after it. *)
Theorem create_puts_after_not_found (d : ResourceData WatchFields)
    (m : ProviderConf) (w : World Cluster) :
  exists l,
    trace (world_of (resourceElasticsearchWatchCreate b d m w))
      = trace w ++ l /\
    forall c e, In (c, e) l -> is_put c = true ->
      c = XPackWatchPut (watch_id (fields d)) (body (fields d)) /\
      exists e0 rest,
        l = (XPackWatchGet (watch_id (fields d)), Some e0) :: (c, e) :: rest /\
        classified_not_found (Some e0) = true.
Proof.
  unfold resourceElasticsearchWatchCreate.
  destruct (resourceElasticsearchGetWatch b (watch_id (fields d)) m w)
    as [[res err] w1] eqn:Hg.
  assert (Hc : err <> None ->
               negb (elastic6_IsNotFound err) && negb (elastic7_IsNotFound err)
                 = false ->
               classified_not_found err = true).
  { intros _ H. unfold classified_not_found.
    destruct (elastic6_IsNotFound err), (elastic7_IsNotFound err);
      simpl in *; congruence. }
  destruct err as [e0|];
    [destruct (negb (elastic6_IsNotFound (Some e0)) &&
               negb (elastic7_IsNotFound (Some e0)));
     [clear Hc|specialize (Hc ltac:(discriminate) eq_refl)]
    |clear Hc];
    revert Hg;
    unfold resourceElasticsearchWatchRead, resourceElasticsearchPutWatch,
      activateWatcher, resourceElasticsearchGetWatch, read_finish, ds_set,
      issue, issue_, world_of;
    repeat (split_scrutinee; simpl);
    intros Hg; inversion Hg; subst; simpl;
    give_trace;
    intros ? ? Hin Hp; simpl in Hin;
    repeat match goal with
           | H : _ \/ _ |- _ => destruct H
           | H : (_, _) = (_, _) |- _ => inversion H; subst; clear H
           | H : False |- _ => destruct H
           end;
    try discriminate;
    (split; [reflexivity|]); eexists _, _; (split; [reflexivity|]);
    exact Hc.
Qed.

(** What [resourceElasticsearchPutWatch] returns.  With no error it
    returns the declared watch id, and its requests were the put and the
    activation request the flag selects, both successful.  With an error
    it returns the empty string, and it stopped at the first failure: no
    request at all (no handle, or the oldest variant), the failed put, or
    the put followed by the failed activation request. *)
Theorem put_watch_result (d : ResourceData WatchFields) (m : ProviderConf)
    (w : World Cluster) :
  let id := watch_id (fields d) in
  let js := body (fields d) in
  let a := active (fields d) in
  let x := resourceElasticsearchPutWatch b d m w in
  exists l,
    trace (snd x) = trace w ++ l /\
    match snd (fst x) with
    | None =>
        fst (fst x) = id /\
        l = [(XPackWatchPut id js, None); (toggle_call a id, None)]
    | Some e =>
        fst (fst x) = ""%string /\
        (l = [] \/ l = [(XPackWatchPut id js, Some e)] \/
         l = [(XPackWatchPut id js, None); (toggle_call a id, Some e)])
    end.
Proof.
  intros id js a x. subst id js a x.
  unfold resourceElasticsearchPutWatch, activateWatcher, issue_, toggle_call.
  repeat (split_scrutinee; simpl);
    repeat match goal with
           | E : (_, _) = (_, _) |- _ => inversion E; subst; clear E
           end; simpl;
    give_trace; auto.
Qed.

(** A read without a handle issues nothing.  It returns the error of
    [getClient], unless that error passes the not-found test: then the read
    returns no error and clears the identifier. *)
Theorem read_without_handle (d : ResourceData WatchFields)
    (m : ProviderConf) (w : World Cluster) (e : error) :
  getClient m = inl e ->
  resourceElasticsearchWatchRead b d m w =
    if classified_not_found (Some e)
    then (Return None, SetId d "", w)
    else (Return (Some e), d, w).
Proof.
  intros Hm.
  unfold resourceElasticsearchWatchRead, resourceElasticsearchGetWatch,
    classified_not_found.
  rewrite Hm.
  destruct (elastic6_IsNotFound (Some e) || elastic7_IsNotFound (Some e));
    reflexivity.
Qed.

(** Delete returns no error exactly when the handle supports watches and
    the cluster answered the delete request without failure. *)
Theorem delete_succeeds_iff (d : ResourceData WatchFields)
    (m : ProviderConf) (w : World Cluster) :
  result_of (resourceElasticsearchWatchDelete b d m w) = Return None <->
  exists cl,
    getClient m = inr cl /\
    supports_watches cl = true /\
    fst (watch_delete b cl (Id d) (cluster w)) = None.
Proof.
  unfold resourceElasticsearchWatchDelete, issue_, result_of.
  destruct (getClient m) as [e|cl]; simpl.
  { split; [discriminate|]. intros (cl & H & _). discriminate. }
  assert (Hback : forall cl',
            inr cl = @inr error Client cl' -> cl' = cl) by congruence.
  destruct cl; simpl;
    try destruct (watch_delete b _ (Id d) (cluster w)) as [[f|] k] eqn:Hd;
    simpl; split;
    try discriminate;
    try (intros (cl' & H & Hs & Hn); apply Hback in H; subst cl';
         first [ rewrite Hd in Hn; discriminate | discriminate | reflexivity ]);
    intros _; eexists; (split; [reflexivity|]); (split; [reflexivity|]);
    rewrite Hd; reflexivity.
Qed.

End WatchProperties.

(** ** Further properties of endpoint discovery *)

Section HostProperties.

Context {Cluster : Type}.

(** Reading the data source again changes nothing: a second read on the
    data and world the first one left returns what the first returned. *)
Theorem host_read_idempotent (d : ResourceData HostFields)
    (m : ProviderConf) (w : World Cluster) :
  dataSourceElasticsearchHostRead
      (data_of (dataSourceElasticsearchHostRead d m w)) m
      (world_of (dataSourceElasticsearchHostRead d m w))
    = dataSourceElasticsearchHostRead d m w.
Proof.
  unfold dataSourceElasticsearchHostRead, data_of, world_of, set_first_url.
  destruct (getClient m) as [e|[[|u us]|[|u us]|[|u us]]]; reflexivity.
Qed.

(** The result of the read depends on the handle through its endpoint
    list only: handles of different variants with the same list give the
    same result. *)
Theorem host_read_depends_on_urls (d : ResourceData HostFields)
    (m1 m2 : ProviderConf) (c1 c2 : Client) (w : World Cluster) :
  getClient m1 = inr c1 ->
  getClient m2 = inr c2 ->
  client_urls c1 = client_urls c2 ->
  dataSourceElasticsearchHostRead d m1 w
    = dataSourceElasticsearchHostRead d m2 w.
Proof.
  intros H1 H2 Hu. unfold dataSourceElasticsearchHostRead.
  rewrite H1, H2. destruct c1, c2; simpl in Hu; subst; reflexivity.
Qed.

End HostProperties.

(** ** Further runs on the in-memory clusters *)

(** Create of [declared] on the empty cluster. *)
Lemma create_fresh_watch_witness :
  resourceElasticsearchWatchCreate RefCluster.backend RefCluster.declared
      RefCluster.v7 (RefCluster.start ∅)
    = (Return None,
       {| Id := "w1";
          fields := {| watch_id := "w1"; body := "{}"; active := true |} |},
       {| cluster := {["w1"%string := ("{}"%string, true)]};
          trace := [(XPackWatchGet "w1", Some (elastic7_Error 404));
                    (XPackWatchPut "w1" "{}", None);
                    (XPackWatchActivate "w1", None);
                    (XPackWatchGet "w1", None)] |}).
Proof.
  apply (create_fresh_watch RefCluster.backend RefCluster.declared
           RefCluster.v7
           (Elastic7Client ["http://a:9200"; "http://b:9200"])
           (RefCluster.start ∅) ∅
           {["w1"%string := ("{}"%string, true)]}
           {["w1"%string := ("{}"%string, true)]}
           {["w1"%string := ("{}"%string, true)]}
           {| Watch := "{}"%string;
              Status := Some {| State := Some {| Active := true |} |} |}
           {| State := Some {| Active := true |} |} {| Active := true |}
           "{}"%string);
    vm_compute; reflexivity.
Defined.

(** Create of [declared] on the cluster that refuses activation. *)
Lemma create_failure_after_probe_witness :
  resourceElasticsearchWatchCreate RefCluster.no_toggle RefCluster.declared
      RefCluster.v7 (RefCluster.start ∅)
    = (Return (Some (elastic7_Error 500)), RefCluster.declared,
       {| cluster := {["w1"%string := ("{}"%string, true)]};
          trace := [(XPackWatchGet "w1", Some (elastic7_Error 404));
                    (XPackWatchPut "w1" "{}", None);
                    (XPackWatchActivate "w1", Some (elastic7_Error 500))] |}).
Proof.
  pose proof (create_failure_after_probe RefCluster.no_toggle
                RefCluster.declared RefCluster.v7
                (Elastic7Client ["http://a:9200"; "http://b:9200"])
                (RefCluster.start ∅) ∅ eq_refl eq_refl) as H.
  hnf in H. specialize (H ltac:(vm_compute; reflexivity)).
  hnf in H. rewrite H. vm_compute. reflexivity.
Defined.

(** Read of the watch the Create above stored. *)
Lemma read_found_watch_witness :
  resourceElasticsearchWatchRead RefCluster.backend RefCluster.tracked
      RefCluster.v6 RefCluster.created
    = (Return None,
       {| Id := "w1";
          fields := {| watch_id := "w1"; body := "{}"; active := true |} |},
       {| cluster := cluster RefCluster.created;
          trace := trace RefCluster.created ++ [(XPackWatchGet "w1", None)] |}).
Proof.
  pose proof (read_found_watch RefCluster.backend RefCluster.tracked
                RefCluster.v6
                (Elastic6Client ["http://a:9200"; "http://b:9200"])
                RefCluster.created (cluster RefCluster.created)
                {| Watch := "{}"%string;
                   Status := Some {| State := Some {| Active := true |} |} |}
                eq_refl eq_refl) as H.
  specialize (H ltac:(vm_compute; reflexivity)).
  hnf in H. rewrite H. reflexivity.
Defined.

(** A Create whose closing read fails keeps the identifier it has set; a
    Read on the unreachable cluster leaves the data alone. *)
Lemma failed_operation_data_witness :
  data_of (resourceElasticsearchWatchRead RefCluster.unreachable
             RefCluster.tracked RefCluster.v6 {| cluster := tt; trace := [] |})
    = RefCluster.tracked /\
  Id (data_of (resourceElasticsearchWatchCreate RefCluster.lookup_breaks
                 RefCluster.declared RefCluster.v7
                 {| cluster := 0%nat; trace := [] |})) = "w1"%string.
Proof.
  split.
  - apply (proj1 (failed_operation_data RefCluster.unreachable
                    RefCluster.tracked RefCluster.v6
                    {| cluster := tt; trace := [] |}
                    (transportError "connection refused"))).
    reflexivity.
  - destruct (proj2 (proj2 (proj2
               (failed_operation_data RefCluster.lookup_breaks
                  RefCluster.declared RefCluster.v7
                  {| cluster := 0%nat; trace := [] |} (elastic7_Error 500))))
               eq_refl) as [H|[H _]];
      [vm_compute in H; discriminate | rewrite H; reflexivity].
Defined.

(** After the Read of a stored watch the attribute equals the identifier. *)
Lemma identifier_after_operation_witness :
  Id (data_of (resourceElasticsearchWatchRead RefCluster.backend
                 RefCluster.tracked RefCluster.v6 RefCluster.created))
    = ""%string \/
  watch_id (fields (data_of (resourceElasticsearchWatchRead RefCluster.backend
                               RefCluster.tracked RefCluster.v6
                               RefCluster.created)))
    = Id (data_of (resourceElasticsearchWatchRead RefCluster.backend
                     RefCluster.tracked RefCluster.v6 RefCluster.created)).
Proof.
  pose proof (identifier_after_operation RefCluster.backend
                RefCluster.tracked RefCluster.v6 RefCluster.created) as H.
  cbv zeta in H. destruct H as (_ & _ & _ & H & _).
  apply H. vm_compute; reflexivity.
Defined.

(** The put of the Create on the empty cluster carries the declared body. *)
Lemma create_addresses_declared_id_witness :
  "{}"%string = body (fields RefCluster.declared).
Proof.
  destruct (create_addresses_declared_id RefCluster.backend
              RefCluster.declared RefCluster.v7 (RefCluster.start ∅))
    as (l & Ht & _ & Hb).
  apply (Hb "w1"%string "{}"%string None).
  vm_compute in Ht. rewrite <- Ht. right. left. reflexivity.
Defined.

(** The lookup of an Update addresses the identifier. *)
Lemma update_addresses_witness :
  call_id (XPackWatchGet "w1") = Id RefCluster.tracked.
Proof.
  destruct (update_addresses RefCluster.backend RefCluster.tracked
              RefCluster.v6 (RefCluster.start ∅)) as (l & Ht & Hc).
  apply (Hc (XPackWatchGet "w1") None).
  vm_compute in Ht. rewrite <- Ht. right. right. left. reflexivity.
Defined.

(** The put of the Create on the empty cluster follows a 404 probe. *)
Lemma create_puts_after_not_found_witness :
  XPackWatchPut "w1" "{}"
    = XPackWatchPut (watch_id (fields RefCluster.declared))
                    (body (fields RefCluster.declared)).
Proof.
  destruct (create_puts_after_not_found RefCluster.backend
              RefCluster.declared RefCluster.v7 (RefCluster.start ∅))
    as (l & Ht & Hp).
  apply (Hp (XPackWatchPut "w1" "{}") None); [|reflexivity].
  vm_compute in Ht. rewrite <- Ht. right. left. reflexivity.
Defined.

(** A Read on the handle lost to a 404 drops the resource. *)
Lemma read_without_handle_witness :
  resourceElasticsearchWatchRead RefCluster.backend RefCluster.tracked
      RefCluster.lost RefCluster.created
    = (Return None, SetId RefCluster.tracked "", RefCluster.created).
Proof.
  apply (read_without_handle RefCluster.backend RefCluster.tracked
           RefCluster.lost RefCluster.created (elastic7_Error 404) eq_refl).
Defined.

(** Delete of the stored watch. *)
Lemma delete_succeeds_iff_witness :
  exists cl,
    getClient RefCluster.v7 = inr cl /\
    supports_watches cl = true /\
    fst (watch_delete RefCluster.backend cl (Id RefCluster.tracked)
           (cluster RefCluster.created)) = None.
Proof.
  apply (proj1 (delete_succeeds_iff RefCluster.backend RefCluster.tracked
                  RefCluster.v7 RefCluster.created)).
  vm_compute; reflexivity.
Defined.

(** The oldest and the newest client with the same endpoints. *)
Lemma host_read_depends_on_urls_witness :
  dataSourceElasticsearchHostRead RefCluster.host RefCluster.v5
      (RefCluster.start ∅)
    = dataSourceElasticsearchHostRead RefCluster.host RefCluster.v7
        (RefCluster.start ∅).
Proof.
  apply (host_read_depends_on_urls RefCluster.host RefCluster.v5
           RefCluster.v7
           (Elastic5Client ["http://a:9200"; "http://b:9200"])
           (Elastic7Client ["http://a:9200"; "http://b:9200"])
           (RefCluster.start ∅) eq_refl eq_refl eq_refl).
Defined.

(** Update of [tracked], stored beforehand, behind the proxy that strips
    the status: the closing read panics. *)
Lemma panic_only_on_missing_status_witness :
  exists w1,
    resourceElasticsearchPutWatch RefCluster.no_status RefCluster.tracked
        RefCluster.v7 RefCluster.created
      = ("w1"%string, None, w1) /\
    result_of (resourceElasticsearchWatchRead RefCluster.no_status
                 RefCluster.tracked RefCluster.v7 w1) = Panic.
Proof.
  apply (proj1 (proj2 (proj2
           (panic_only_on_missing_status RefCluster.no_status
              RefCluster.tracked RefCluster.v7 RefCluster.created)))).
  vm_compute; reflexivity.
Defined.
